(** * ColumnProperty (lib/sqlalchemy/orm/properties.py)

    A shallow embedding of the [ColumnProperty] class of SQLAlchemy's ORM and
    of its nested [Comparator], together with the properties of its
    constructor, [copy], [do_init], [merge] and the comparator's memoized
    attributes.

    Python dictionaries (the keyword arguments, the instance dictionaries handed to
    [merge], the annotation dictionary) are finite maps with string keys;
    exceptions are the left summand of a sum type; the module-level creation
    counter is threaded explicitly through the constructor. *)

From Stdlib Require Import String Ascii ZArith List Sorted.
From Stdlib Require Import Structures.OrdersEx.
From stdpp Require Import base option list gmap strings sorting.

Local Open Scope string_scope.

(** ** Python values *)

(** The values that reach the keyword options and the instance dictionaries.
    [PyObj] stands for any other object (a class, a callable, a dictionary):
    it carries a name for its identity and the result of [bool()] on it. *)
Inductive pyobj : Type :=
  | PyNone
  | PyBool (b : bool)
  | PyInt (z : Z)
  | PyStr (s : string)
  | PyObj (name : string) (truth : bool).

#[global] Instance pyobj_eq_dec : EqDecision pyobj.
Proof. solve_decision. Defined.

(** Truth value testing, as [if x:] and [not x] perform it. *)
Definition truthy (v : pyobj) : bool :=
  match v with
  | PyNone => false
  | PyBool b => b
  | PyInt z => negb (Z.eqb z 0)
  | PyStr s => negb (String.eqb s "")
  | PyObj _ t => t
  end.

(** ** Exceptions *)

Inductive exn : Type :=
  | TypeError (msg : string)
  | ArgumentError (msg : string)
  | AttributeError (msg : string)
  | IndexError (msg : string).

#[global] Instance exn_eq_dec : EqDecision exn.
Proof. solve_decision. Defined.

(** A computation that either raises or returns. *)
Definition result (A : Type) : Type := exn + A.

Definition ret {A} (a : A) : result A := inr a.
Definition raise {A} (e : exn) : result A := inl e.

Definition bind {A B} (m : result A) (k : A -> result B) : result B :=
  match m with
  | inl e => inl e
  | inr a => k a
  end.

Notation "'let!' x ':=' m 'in' k" := (bind m (fun x => k))
  (at level 10, x name, m at level 100, k at level 200).

(** A list comprehension whose body may raise: the elements are evaluated
    left to right and the first exception aborts the comprehension. *)
Fixpoint comprehension {A B} (f : A -> result B) (l : list A) : result (list B) :=
  match l with
  | [] => ret []
  | a :: l' =>
      let! b := f a in
      let! bs := comprehension f l' in
      ret (b :: bs)
  end.

(** [seq[i]] on a list, for a non-negative literal index. *)
Definition getitem {A} (l : list A) (i : nat) : result A :=
  match l !! i with
  | Some a => ret a
  | None => raise (IndexError "list index out of range")
  end.

(** ** Keyword arguments *)

(** [kwargs.pop(k, d)]: the value and the dictionary without [k]. *)
Definition pop (k : string) (d : pyobj) (kw : gmap string pyobj)
  : pyobj * gmap string pyobj :=
  (default d (kw !! k), delete k kw).

(** Python compares [str] by code point; on the UTF-8 bytes of a [string]
    that is the byte-wise lexicographic order of [String.leb]. *)
Definition str_le (a b : string) : Prop := String.leb a b = true.
Definition str_lt (a b : string) : Prop := String.ltb a b = true.

#[global] Instance str_le_dec : RelDecision str_le.
Proof. intros a b. unfold str_le. apply _. Defined.
#[global] Instance str_lt_dec : RelDecision str_lt.
Proof. intros a b. unfold str_lt. apply _. Defined.

(** [sorted(d.keys())] *)
Definition sorted_keys (kw : gmap string pyobj) : list string :=
  merge_sort str_le (map fst (map_to_list kw)).

(** [sep.join(l)] *)
Definition join (sep : string) (l : list string) : string := String.concat sep l.

(** The options that [__init__] pops, in the order it pops them. *)
Definition known_options : list string :=
  [ "group"; "deferred"; "raiseload"; "_instrument"; "comparator_factory";
    "descriptor"; "active_history"; "expire_on_flush"; "info"; "doc" ].

(** The entries of a keyword dictionary that no pop removes. *)
Definition leftover (kw : gmap string pyobj) : gmap string pyobj :=
  filter (fun kv => kv.1 ∉ known_options) kw.

(** [self.__class__.__name__] and the default of [comparator_factory],
    [self.__class__.Comparator]. *)
Definition class_name : string := "ColumnProperty".
Definition Comparator_class : pyobj := PyObj "ColumnProperty.Comparator" true.

(** Modelled from the spec: [util.set_creation_order] lives in
    [util/langhelpers.py]; it hands out the value of a process-wide counter
    and increments the counter, so values are strictly increasing and never
    reused. *)
Definition set_creation_order (counter : nat) : nat * nat :=
  (counter, S counter).

(** ** The property *)

Section ColumnProperty.

(** Column expressions are objects of the SQL expression layer, compared by
    identity (their [__hash__] is the identity hash). *)
Context {Expr : Type} `{EqDecision Expr}.

(** Collaborators from the SQL layer:
    [coercions.expect(roles.LabeledColumnExprRole, c)], which raises on a
    value that is no column expression; [_orm_full_deannotate(c)], which is
    called on the caller's value itself and raises on one that cannot be
    de-annotated; and [getattr(col, "doc", None)]. *)
Variable expect : Expr -> result Expr.
Variable _orm_full_deannotate : Expr -> result Expr.
Variable getattr_doc : Expr -> pyobj.

Record ColumnProperty : Type := mkColumnProperty {
  _orig_columns : list Expr;
  columns : list Expr;
  group : pyobj;
  deferred : pyobj;
  raiseload : pyobj;
  instrument : pyobj;
  comparator_factory : pyobj;
  descriptor : pyobj;
  active_history : pyobj;
  expire_on_flush : pyobj;
  (** [None]: the slot was not assigned by the constructor. *)
  info : option pyobj;
  doc : pyobj;
  strategy_key : list (string * pyobj);
  _creation_order : nat
}.

(** The body of the second comprehension of [__init__],
    [coercions.expect(roles.LabeledColumnExprRole, _orm_full_deannotate(c))]:
    the argument is evaluated first. *)
Definition expect_deannotated (c : Expr) : result Expr :=
  let! d := _orm_full_deannotate c in
  expect d.

(** The [for col in reversed(self.columns) ... else] loop of [__init__],
    run on the reversed list. *)
Fixpoint doc_loop (reversed_columns : list Expr) : pyobj :=
  match reversed_columns with
  | [] => PyNone
  | col :: rest =>
      let d := getattr_doc col in
      if decide (d <> PyNone) then d else doc_loop rest
  end.

(** [ColumnProperty.__init__] on its positional and keyword arguments,
    with the creation counter before and after. The initializer of the
    superclass, called first, assigns none of these slots. *)
Definition __init__ (cols : list Expr) (kwargs : gmap string pyobj)
    (counter : nat) : result ColumnProperty * nat :=
  match comprehension expect cols with
  | inl e => (raise e, counter)
  | inr orig =>
  match comprehension expect_deannotated cols with
  | inl e => (raise e, counter)
  | inr columns_ =>
    let '(group_, kw) := pop "group" PyNone kwargs in
    let '(deferred_, kw) := pop "deferred" (PyBool false) kw in
    let '(raiseload_, kw) := pop "raiseload" (PyBool false) kw in
    let '(instrument_, kw) := pop "_instrument" (PyBool true) kw in
    let '(comparator_factory_, kw) := pop "comparator_factory" Comparator_class kw in
    let '(descriptor_, kw) := pop "descriptor" PyNone kw in
    let '(active_history_, kw) := pop "active_history" (PyBool false) kw in
    let '(expire_on_flush_, kw) := pop "expire_on_flush" (PyBool true) kw in
    let '(info_, kw) :=
      match kw !! "info" with
      | Some v => (Some v, delete "info" kw)
      | None => (@None pyobj, kw)
      end in
    let '(doc_, kw) :=
      match kw !! "doc" with
      | Some v => (v, delete "doc" kw)
      | None => (doc_loop (rev columns_), kw)
      end in
    if decide (kw <> ∅) then
      (raise (TypeError (class_name
                ++ " received unexpected keyword argument(s): "
                ++ join ", " (sorted_keys kw))), counter)
    else
      let '(order, counter') := set_creation_order counter in
      let key0 := [("deferred", deferred_); ("instrument", instrument_)] in
      let key1 := if truthy raiseload_
                  then (key0 ++ [("raiseload", PyBool true)])%list else key0 in
      (ret {| _orig_columns := orig; columns := columns_;
              group := group_; deferred := deferred_;
              raiseload := raiseload_; instrument := instrument_;
              comparator_factory := comparator_factory_;
              descriptor := descriptor_;
              active_history := active_history_;
              expire_on_flush := expire_on_flush_;
              info := info_; doc := doc_;
              strategy_key := key1; _creation_order := order |},
       counter')
  end end.

(** The fields a successful construction assigns, read off the keyword
    dictionary it was given. *)
Definition built (orig cs : list Expr) (kw : gmap string pyobj) (n : nat)
    : ColumnProperty :=
  {| _orig_columns := orig; columns := cs;
     group := default PyNone (kw !! "group");
     deferred := default (PyBool false) (kw !! "deferred");
     raiseload := default (PyBool false) (kw !! "raiseload");
     instrument := default (PyBool true) (kw !! "_instrument");
     comparator_factory := default Comparator_class (kw !! "comparator_factory");
     descriptor := default PyNone (kw !! "descriptor");
     active_history := default (PyBool false) (kw !! "active_history");
     expire_on_flush := default (PyBool true) (kw !! "expire_on_flush");
     info := kw !! "info";
     doc := match kw !! "doc" with
            | Some v => v
            | None => doc_loop (rev cs)
            end;
     strategy_key :=
       [("deferred", default (PyBool false) (kw !! "deferred"));
        ("instrument", default (PyBool true) (kw !! "_instrument"))]
       ++ (if truthy (default (PyBool false) (kw !! "raiseload"))
           then [("raiseload", PyBool true)] else []);
     _creation_order := n |}.


(** [copy]: a fresh construction from [self.columns] with three options. *)
Definition copy (self : ColumnProperty) (counter : nat)
    : result ColumnProperty * nat :=
  __init__ (columns self)
    (<["deferred" := deferred self]>
       (<["group" := group self]>
          (<["active_history" := active_history self]> ∅)))
    counter.

(** ** The property attached to its mapper *)

(** Further collaborators: the mapper's polymorphic adapter and the
    entities a comparator is bound to are opaque objects; instance states
    expose [has_identity]; [str()] of a mapper and of a column are used in
    the warning of [do_init]. *)
Context {Adapter Entity InstanceState : Type}.
Variable str_expr : Expr -> string.

Record Mapper : Type := mkMapper {
  mapper_str : string;
  primary_key : list Expr;
  _polymorphic_adapter : option Adapter
}.

(** The mapper assigns [key] and [parent] after construction. *)
Record MappedProperty : Type := mkMappedProperty {
  prop_self : ColumnProperty;
  key : string;
  parent : Mapper
}.

(** What a method does to the world outside the property. *)
Inductive event : Type :=
  | SuperDoInit
  | Warn (msg : string)
  | ImplSet (attr : string) (value : pyobj) (initiator : pyobj)
  | ExpireAttributes (keys : list string) (no_loader : bool).

(** [ColumnProperty.do_init]: the events it produces, or the exception of
    an index out of range. The superclass's [do_init], which picks the loader
    strategy in [interfaces.py], is recorded as the event [SuperDoInit]. *)
Definition do_init (self : MappedProperty) : result (list event) :=
  let cols := columns (prop_self self) in
  if bool_decide (1 < length cols)
     && bool_decide (cols ⊆ primary_key (parent self))
  then
    let! c1 := getitem cols 1 in
    let! c0 := getitem cols 0 in
    ret [ SuperDoInit;
          Warn ("On mapper " +:+ mapper_str (parent self)
                +:+ ", primary key column '" +:+ str_expr c1
                +:+ "' is being combined with distinct primary key column '"
                +:+ str_expr c0 +:+ "' in attribute '" +:+ key self
                +:+ "'. Use explicit properties to give each column its own "
                +:+ "mapped attribute name.") ]
  else ret [SuperDoInit].

(** *** merge *)

(** The attribute implementation's [set] and the state's
    [_expire_attributes] act on the destination state and dictionary. *)
Variable has_identity : InstanceState -> bool.
Variable impl_set :
  string -> InstanceState -> gmap string pyobj -> pyobj -> pyobj ->
  InstanceState * gmap string pyobj.
Variable _expire_attributes :
  InstanceState -> gmap string pyobj -> list string -> bool ->
  InstanceState * gmap string pyobj.

Record merged : Type := mkMerged {
  dest_state_after : InstanceState;
  dest_dict_after : gmap string pyobj;
  calls : list event
}.

(** [ColumnProperty.merge]; the session, the source state and the two
    bookkeeping arguments are not used by the body. *)
Definition merge (self : MappedProperty)
    (source_dict : gmap string pyobj)
    (dest_state : InstanceState) (dest_dict : gmap string pyobj)
    (load : bool) : merged :=
  if negb (truthy (instrument (prop_self self))) then
    mkMerged dest_state dest_dict []
  else
    match source_dict !! key self with
    | Some value =>
        if negb load then
          mkMerged dest_state (<[key self := value]> dest_dict) []
        else
          let '(st, d) := impl_set (key self) dest_state dest_dict value PyNone in
          mkMerged st d [ImplSet (key self) value PyNone]
    | None =>
        if has_identity dest_state
           && bool_decide (dest_dict !! key self = None)
        then
          let '(st, d) := _expire_attributes dest_state dest_dict [key self] true in
          mkMerged st d [ExpireAttributes [key self] true]
        else mkMerged dest_state dest_dict []
    end.

(** *** Comparator *)

Inductive annotation : Type :=
  | AnnEntity (e : Entity)
  | AnnStr (s : string)
  | AnnColumn (c : Expr).

Variable traverse : Adapter -> Expr -> Expr.
Variable _annotate : Expr -> gmap string annotation -> Expr.
Variable _set_propagate_attrs : Expr -> gmap string annotation -> Expr.

Record Comparator : Type := mkComparator {
  prop : MappedProperty;
  _parententity : Entity;
  _parentmapper : Mapper;
  (** [None], or the function that adapts a column under a key. *)
  adapter : option (Expr -> string -> Expr)
}.

Definition _orm_annotate_column (self : Comparator) (column : Expr) : Expr :=
  let pe := _parententity self in
  let annotations : gmap string annotation :=
    <["orm_key" := AnnStr (key (prop self))]>
      (<["parentmapper" := AnnEntity pe]>
         (<["parententity" := AnnEntity pe]>
            (<["entity_namespace" := AnnEntity pe]> ∅))) in
  let '(col, annotations) :=
    match _polymorphic_adapter (_parentmapper self) with
    | Some pa =>
        (traverse pa column, <["adapt_column" := AnnColumn column]> annotations)
    | None => (column, annotations)
    end in
  _set_propagate_attrs (_annotate col annotations)
    (<["plugin_subject" := AnnEntity pe]>
       (<["compile_state_plugin" := AnnStr "orm"]> ∅)).

(** The value memoized for [__clause_element__]. *)
Definition __clause_element__ (self : Comparator) : result Expr :=
  match adapter self with
  | Some adapt =>
      let! c0 := getitem (columns (prop_self (prop self))) 0 in
      ret (adapt c0 (key (prop self)))
  | None =>
      let! c0 := getitem (columns (prop_self (prop self))) 0 in
      ret (_orm_annotate_column self c0)
  end.

(** The value memoized for [expressions]. *)
Definition expressions (self : Comparator) : list Expr :=
  match adapter self with
  | Some adapt =>
      map (fun col => adapt col (key (prop self)))
          (columns (prop_self (prop self)))
  | None =>
      map (_orm_annotate_column self) (columns (prop_self (prop self)))
  end.

(** *** Class instrumentation and display *)

(** [mapper.class_] and [str(mapper.class_.__name__)] are read off a
    mapper. *)
Variable mapper_class : Mapper -> pyobj.
Variable class___name__ : Mapper -> string.

(** The call [self.comparator_factory(self, mapper)] of the stored value,
    which raises when the value cannot be called, and otherwise returns
    the comparator object. *)
Variable call_comparator_factory :
  pyobj -> MappedProperty -> Mapper -> result pyobj.

(** The arguments of one call of [attributes.register_descriptor]. *)
Record registration : Type := mkRegistration {
  reg_class : pyobj;
  reg_key : string;
  reg_comparator : pyobj;
  reg_parententity : Mapper;
  reg_doc : pyobj
}.

(** [ColumnProperty.instrument_class]: the descriptors it registers, or the
    exception of the comparator factory, which is called before anything is
    registered. *)
Definition instrument_class (self : MappedProperty) (mapper : Mapper)
    : result (list registration) :=
  if negb (truthy (instrument (prop_self self))) then ret []
  else
    let! comparator :=
      call_comparator_factory (comparator_factory (prop_self self))
        self mapper in
    ret [ {| reg_class := mapper_class mapper;
             reg_key := key self;
             reg_comparator := comparator;
             reg_parententity := mapper;
             reg_doc := doc (prop_self self) |} ].

(** [ColumnProperty.__str__] *)
Definition __str__ (self : MappedProperty) : string :=
  class___name__ (parent self) +:+ "." +:+ key self.

End ColumnProperty.

(** ** A sample SQL layer

    A small concrete instance of the collaborators, on which the definitions
    above can be run. *)
Module Sample.

(** A column with a name, its [doc] and whether it carries ORM annotations;
    a literal, which the coercion turns into a bound parameter but which
    cannot be de-annotated; or a value that is no column expression. *)
Inductive expr : Type :=
  | Col (name : string) (doc : pyobj) (annotated : bool)
  | Lit (value : string)
  | Junk (what : string).

#[global] Instance expr_eq_dec : EqDecision expr.
Proof. solve_decision. Defined.

Definition expect (c : expr) : result expr :=
  match c with
  | Col _ _ _ => ret c
  | Lit v => ret (Col (":" +:+ v) PyNone false)
  | Junk w => raise (ArgumentError ("Column expression expected, got " +:+ w))
  end.

Definition deannotate (c : expr) : result expr :=
  match c with
  | Col n d _ => ret (Col n d false)
  | Lit v => raise (AttributeError (v +:+ " has no attribute '_deannotate'"))
  | Junk w => raise (AttributeError (w +:+ " has no attribute '_deannotate'"))
  end.

Definition getattr_doc (c : expr) : pyobj :=
  match c with
  | Col _ d _ => d
  | Lit _ => PyNone
  | Junk _ => PyNone
  end.

Definition str_expr (c : expr) : string :=
  match c with
  | Col n _ _ => n
  | Lit v => v
  | Junk w => w
  end.

Definition init := __init__ expect deannotate getattr_doc.

Definition id_col : expr := Col "users.id" PyNone false.
Definition name_col : expr := Col "users.name" (PyStr "the name") true.
Definition nick_col : expr := Col "users.nick" (PyStr "the nick") false.
Definition plain_name_col : expr := Col "users.name" (PyStr "the name") false.

(** Instance states are their [has_identity] flag; the attribute
    implementation stores the value, expiring removes the keys. *)
Definition impl_set (k : string) (st : bool) (d : gmap string pyobj)
    (v initiator : pyobj) : bool * gmap string pyobj :=
  (st, <[k := v]> d).

Definition expire_attributes (st : bool) (d : gmap string pyobj)
    (keys : list string) (no_loader : bool) : bool * gmap string pyobj :=
  (st, foldr delete d keys).

Definition traverse (a : string) (c : expr) : expr :=
  match c with
  | Col n d an => Col (a +:+ "." +:+ n) d an
  | Lit v => Lit v
  | Junk w => Junk w
  end.

(** Annotating marks the column when the dictionary names its parent
    entity. *)
Definition annotate (c : expr) (ann : gmap string (@annotation expr string)) : expr :=
  match c with
  | Col n d _ => Col n d (bool_decide (is_Some (ann !! "parententity")))
  | Lit v => Lit v
  | Junk w => Junk w
  end.

Definition set_propagate_attrs (c : expr)
    (attrs : gmap string (@annotation expr string)) : expr := c.

(** A mapper whose primary key has two columns, and properties as the
    constructor builds them, attached to it. *)
Definition version_col : expr := Col "users.version" PyNone false.
Definition x_col : expr := Col "users.x" PyNone false.

Definition users_mapper : @Mapper expr string :=
  mkMapper "mapped class User->users" [id_col; version_col] None.

Definition x_prop : @MappedProperty expr string :=
  mkMappedProperty (built getattr_doc [x_col] [x_col] ∅ 0) "x" users_mapper.

Definition pk_prop : @MappedProperty expr string :=
  mkMappedProperty
    (built getattr_doc [id_col; version_col] [id_col; version_col] ∅ 1)
    "id" users_mapper.

Definition hidden_prop : @MappedProperty expr string :=
  mkMappedProperty
    (built getattr_doc [x_col] [x_col] {["_instrument" := PyBool false]} 2)
    "x" users_mapper.

(** Keyword dictionaries. *)
Definition no_options : gmap string pyobj := ∅.
Definition with_deferred : gmap string pyobj := {["deferred" := PyBool true]}.
Definition with_raiseload : gmap string pyobj := {["raiseload" := PyBool true]}.
Definition with_doc_none : gmap string pyobj := {["doc" := PyNone]}.
Definition with_unknown : gmap string pyobj :=
  <["zeta" := PyNone]> (<["alpha" := PyNone]>
    (<["deferred" := PyBool true]> (<["Beta" := PyInt 1]> ∅))).

Definition deferred_prop : @ColumnProperty expr :=
  built getattr_doc [name_col] [plain_name_col] with_deferred 3.

Definition alias_adapter (c : expr) (k : string) : expr :=
  traverse "users_1" c.

Definition comparator_of (p : @MappedProperty expr string)
    (a : option (expr -> string -> expr)) : @Comparator expr string string :=
  mkComparator p "User" users_mapper a.

Definition merge_ :=
  merge (Expr := expr) (Adapter := string)
    (fun st : bool => st) impl_set expire_attributes.

(** The class of a mapper and its name. *)
Definition mapper_class (m : @Mapper expr string) : pyobj := PyObj "User" true.
Definition class_name_of (m : @Mapper expr string) : string := "User".

(** More keyword dictionaries and columns. *)
Definition with_one_unknown : gmap string pyobj :=
  <["defered" := PyBool true]> (<["group" := PyStr "g"]> ∅).
Definition with_other_values : gmap string pyobj :=
  <["Beta" := PyNone]> (<["zeta" := PyInt 2]>
    (<["alpha" := PyStr "a"]> (<["group" := PyStr "g"]> ∅))).
Definition with_many : gmap string pyobj :=
  <["group" := PyStr "g"]> (<["info" := PyObj "dict" false]>
    (<["expire_on_flush" := PyBool false]> ∅)).
Definition with_instrument_off : gmap string pyobj :=
  {["_instrument" := PyBool false]}.
Definition with_factory_none : gmap string pyobj :=
  {["comparator_factory" := PyNone]}.

(** Calling a stored comparator factory: objects are called, other values
    are not callable. *)
Definition call_factory (f : pyobj) (self : @MappedProperty expr string)
    (mapper : @Mapper expr string) : result pyobj :=
  match f with
  | PyObj name _ => ret (PyObj (name +:+ "(" +:+ key self +:+ ")") true)
  | PyNone => raise (TypeError "'NoneType' object is not callable")
  | PyBool _ => raise (TypeError "'bool' object is not callable")
  | PyInt _ => raise (TypeError "'int' object is not callable")
  | PyStr _ => raise (TypeError "'str' object is not callable")
  end.

(** A property with the same primary-key column twice, and a source
    dictionary. *)
Definition twice_prop : @MappedProperty expr string :=
  mkMappedProperty
    (built getattr_doc [id_col; id_col] [id_col; id_col] ∅ 4)
    "id" users_mapper.
Definition five_source : gmap string pyobj := {["x" := PyInt 5]}.

End Sample.

(** ** The order of [sorted] on strings *)

Lemma str_compare_OT (a b : string) :
  String.compare a b = String_as_OT.compare a b.
Proof.
  revert b. induction a as [|x a IH]; intros [|y b]; simpl; try reflexivity.
Qed.

Lemma str_lt_le_ne (a b : string) : str_lt a b <-> str_le a b /\ a <> b.
Proof.
  unfold str_lt, str_le, String.ltb, String.leb. split.
  - intros Hlt. destruct (String.compare a b) eqn:Hc; try discriminate.
    split; [done|]. intros ->.
    rewrite str_compare_OT in Hc.
    by apply (irreflexivity String_as_OT.lt b).
  - intros [Hle Hne]. destruct (String.compare a b) eqn:Hc; try done.
    by apply String.compare_eq_iff in Hc.
Qed.

#[global] Instance str_le_total : Total str_le.
Proof. intros a b. apply String.leb_total. Qed.

#[global] Instance str_lt_trans : Transitive str_lt.
Proof.
  intros a b c. unfold str_lt, String.ltb. intros Hab Hbc.
  destruct (String.compare a b) eqn:E1; try discriminate.
  destruct (String.compare b c) eqn:E2; try discriminate.
  rewrite str_compare_OT in E1, E2 |- *.
  by rewrite (transitivity (R := String_as_OT.lt) E1 E2).
Qed.

#[global] Instance str_le_trans : Transitive str_le.
Proof.
  intros a b c Hab Hbc.
  destruct (decide (a = b)) as [->|Hne1]; [done|].
  destruct (decide (b = c)) as [->|Hne2]; [done|].
  apply (str_lt_le_ne a c).
  transitivity b; by apply str_lt_le_ne.
Qed.

(** The sorted keys of a dictionary are strictly increasing and are exactly
    its keys. *)
Lemma sorted_keys_increasing (m : gmap string pyobj) :
  StronglySorted str_lt (sorted_keys m).
Proof.
  unfold sorted_keys.
  assert (Hnd : NoDup (merge_sort str_le (map fst (map_to_list m)))).
  { rewrite merge_sort_Permutation. apply NoDup_fst_map_to_list. }
  pose proof (StronglySorted_merge_sort str_le (map fst (map_to_list m))) as Hs.
  induction Hs as [|x l Hl IH Hx]; [constructor|].
  apply NoDup_cons in Hnd as [Hx' Hnd].
  constructor; [by apply IH|].
  apply Forall_forall. intros y Hy.
  apply str_lt_le_ne. split.
  - by eapply Forall_forall in Hx.
  - by intros ->.
Qed.

Lemma elem_of_sorted_keys (m : gmap string pyobj) (k : string) :
  k ∈ sorted_keys m <-> is_Some (m !! k).
Proof.
  unfold sorted_keys. rewrite merge_sort_Permutation.
  change (map fst (map_to_list m)) with ((map_to_list m).*1).
  rewrite list_elem_of_fmap. split.
  - intros [[k' v] [-> Hin]]. apply elem_of_map_to_list in Hin. by exists v.
  - intros [v Hv]. exists (k, v). split; [done|].
    by apply elem_of_map_to_list.
Qed.

(** ** Comprehensions *)

Section Comprehension.
Context {A B : Type} (f : A -> result B).

Lemma comprehension_cons_inv (a : A) (l : list A) (bs : list B) :
  comprehension f (a :: l) = inr bs ->
  exists b bs', bs = b :: bs' /\ f a = inr b /\ comprehension f l = inr bs'.
Proof.
  simpl. unfold bind, ret.
  destruct (f a) as [e|b]; [discriminate|].
  destruct (comprehension f l) as [e|bs']; [discriminate|].
  intros [= <-]. by exists b, bs'.
Qed.

Lemma comprehension_length (l : list A) (bs : list B) :
  comprehension f l = inr bs -> length bs = length l.
Proof.
  revert bs. induction l as [|a l IH]; intros bs.
  - by intros [= <-].
  - intros (b & bs' & -> & _ & Hl)%comprehension_cons_inv.
    simpl. f_equal. by apply IH.
Qed.

Lemma comprehension_lookup (l : list A) (bs : list B) (i : nat) (a : A) :
  comprehension f l = inr bs -> l !! i = Some a ->
  exists b, bs !! i = Some b /\ f a = inr b.
Proof.
  revert bs i. induction l as [|x l IH]; intros bs i Hc Hi; [done|].
  apply comprehension_cons_inv in Hc as (b & bs' & -> & Hb & Hl).
  destruct i as [|i]; simpl in *.
  - injection Hi as ->. by exists b.
  - by eapply IH.
Qed.


End Comprehension.

Lemma comprehension_fixed {A : Type} (f : A -> result A) (l : list A) :
  (forall a, a ∈ l -> f a = inr a) -> comprehension f l = inr l.
Proof.
  induction l as [|a l IH]; intros Hf; [done|].
  simpl. rewrite (Hf a) by left. simpl.
  rewrite IH; [done|]. intros b Hb. apply Hf. by right.
Qed.

(** ** Properties of the constructor *)

Section Properties.

Context {Expr : Type} `{EqDecision Expr}.
Context {Adapter Entity InstanceState : Type}.
Variable expect : Expr -> result Expr.
Variable _orm_full_deannotate : Expr -> result Expr.
Variable getattr_doc : Expr -> pyobj.

Local Abbreviation init := (__init__ expect _orm_full_deannotate getattr_doc).
Local Abbreviation normalize :=
  (comprehension (expect_deannotated expect _orm_full_deannotate)).

(** The dictionary that is left after the ten pops. *)
Lemma lookup_leftover (kw : gmap string pyobj) (k : string) :
  leftover kw !! k = if decide (k ∈ known_options) then None else kw !! k.
Proof.
  unfold leftover. rewrite map_lookup_filter.
  destruct (kw !! k) as [v|] eqn:Hk; simpl.
  - case_guard; case_decide; simpl in *; try done.
  - by case_decide.
Qed.

Lemma pops_leftover (kw : gmap string pyobj) :
  let kw6 := delete "expire_on_flush" (delete "active_history"
              (delete "descriptor" (delete "comparator_factory"
                (delete "_instrument" (delete "raiseload"
                  (delete "deferred" (delete "group" kw))))))) in
  let kw7 := match kw6 !! "info" with
             | Some _ => delete "info" kw6 | None => kw6 end in
  match kw7 !! "doc" with
  | Some _ => delete "doc" kw7 | None => kw7 end = leftover kw.
Proof.
  intros kw6 kw7.
  assert (H7 : kw7 = delete "info" kw6).
  { unfold kw7. destruct (kw6 !! "info") eqn:E; [done|].
    by rewrite delete_id. }
  assert (H8 : match kw7 !! "doc" with
               | Some _ => delete "doc" kw7 | None => kw7 end
               = delete "doc" kw7).
  { destruct (kw7 !! "doc") eqn:E; [done|]. by rewrite delete_id. }
  rewrite H8, H7. unfold kw6. apply map_eq. intros k.
  rewrite lookup_leftover. unfold known_options.
  case_decide as Hin.
  - repeat (apply elem_of_cons in Hin as [->|Hin];
            [by simplify_map_eq|]).
    by apply elem_of_nil in Hin.
  - rewrite !lookup_delete_ne; [done|..];
      intros <-; apply Hin; set_solver.
Qed.

Lemma init_unfold (cols : list Expr) (kw : gmap string pyobj) (n : nat) :
  init cols kw n =
  match comprehension expect cols with
  | inl e => (inl e, n)
  | inr orig =>
    match normalize cols with
    | inl e => (inl e, n)
    | inr cs =>
      if decide (leftover kw <> ∅) then
        (inl (TypeError (class_name
                +:+ " received unexpected keyword argument(s): "
                +:+ join ", " (sorted_keys (leftover kw)))), n)
      else (inr (built getattr_doc orig cs kw n), S n)
    end
  end.
Proof.
  unfold __init__.
  destruct (comprehension expect cols) as [e|orig]; [done|].
  destruct (normalize cols) as [e|cs]; [done|].
  unfold pop. cbv zeta.
  pose proof (pops_leftover kw) as Hleft. cbv zeta in Hleft.
  set (kw6 := delete "expire_on_flush" _) in *.
  assert (Hinfo : kw6 !! "info" = kw !! "info").
  { unfold kw6. by rewrite !lookup_delete_ne. }
  assert (Hdoc : match kw6 !! "info" with
                 | Some _ => delete "info" kw6 | None => kw6 end !! "doc"
                 = kw !! "doc").
  { unfold kw6. destruct (_ !! "info"); by rewrite !lookup_delete_ne. }
  rewrite !lookup_delete_ne by done.
  destruct (kw6 !! "info") as [vi|] eqn:Ei; cbv beta iota;
    rewrite Hdoc in Hleft |- *.
  all: destruct (kw !! "doc") as [vd|] eqn:Ed; cbv beta iota;
    rewrite Hleft; case_decide; try done.
  all: unfold built, set_creation_order; rewrite <- Hinfo, Ed;
    by destruct (truthy _).
Qed.

Lemma init_success (cols : list Expr) (kw : gmap string pyobj) (n n' : nat)
    (p : ColumnProperty) :
  init cols kw n = (inr p, n') ->
  exists orig cs,
    comprehension expect cols = inr orig /\ normalize cols = inr cs
    /\ leftover kw = ∅ /\ p = built getattr_doc orig cs kw n /\ n' = S n.
Proof.
  rewrite init_unfold.
  destruct (comprehension expect cols) as [e|orig]; [discriminate|].
  destruct (normalize cols) as [e|cs]; [discriminate|].
  case_decide as Hl; [discriminate|].
  intros [= <- <-]. exists orig, cs. repeat split; try done.
Qed.

(** C3: after a successful construction, [strategy_key] is the tuple
    [(("deferred", deferred), ("instrument", instrument))], followed by
    [("raiseload", True)] exactly when [raiseload] is true; the entries
    hold the values of the [deferred] and [_instrument] options or their
    defaults, so that with [deferred=False], [instrument=True] and
    [raiseload=False] the key is
    [(("deferred", False), ("instrument", True))]. *)
Theorem strategy_key_of_construction
    (cols : list Expr) (kw : gmap string pyobj) (n n' : nat)
    (p : ColumnProperty) :
  init cols kw n = (inr p, n') ->
  deferred p = default (PyBool false) (kw !! "deferred")
  /\ instrument p = default (PyBool true) (kw !! "_instrument")
  /\ raiseload p = default (PyBool false) (kw !! "raiseload")
  /\ (truthy (raiseload p) = false ->
      strategy_key p
      = [("deferred", deferred p); ("instrument", instrument p)])
  /\ (truthy (raiseload p) = true ->
      strategy_key p
      = [("deferred", deferred p); ("instrument", instrument p);
         ("raiseload", PyBool true)])
  /\ (deferred p = PyBool false -> instrument p = PyBool true ->
      raiseload p = PyBool false ->
      strategy_key p
      = [("deferred", PyBool false); ("instrument", PyBool true)]).
Proof.
  intros (orig & cs & _ & _ & _ & -> & _)%init_success. simpl.
  repeat split; try done.
  - by intros ->.
  - by intros ->.
  - by intros -> -> ->.
Qed.

(** C10: with [raiseload=True] and no [deferred] option, the stored
    [deferred] stays [False]; [raiseload] only adds its entry at the end
    of [strategy_key]. *)
Theorem raiseload_leaves_deferred_false
    (cols : list Expr) (kw : gmap string pyobj) (n n' : nat)
    (p : ColumnProperty) :
  kw !! "raiseload" = Some (PyBool true) ->
  kw !! "deferred" = None ->
  init cols kw n = (inr p, n') ->
  deferred p = PyBool false
  /\ raiseload p = PyBool true
  /\ strategy_key p
     = [("deferred", PyBool false); ("instrument", instrument p);
        ("raiseload", PyBool true)].
Proof.
  intros Hr Hd (orig & cs & _ & _ & _ & -> & _)%init_success. simpl.
  by rewrite Hr, Hd.
Qed.

(** What the reversed scan for a [doc] finds. *)
Lemma doc_loop_rev (l : list Expr) :
  let d := doc_loop getattr_doc (rev l) in
  (d <> PyNone
   /\ exists i c, l !! i = Some c /\ getattr_doc c = d
      /\ forall j c', i < j -> l !! j = Some c' -> getattr_doc c' = PyNone)
  \/ (d = PyNone /\ forall c, c ∈ l -> getattr_doc c = PyNone).
Proof.
  induction l as [|x l IH] using rev_ind; simpl.
  - right. split; [done|]. by intros c ?%elem_of_nil.
  - rewrite rev_app_distr. simpl. case_decide as Hx.
    + left. split; [done|]. exists (length l), x. split_and!.
      * by rewrite list_lookup_middle.
      * done.
      * intros j c' Hj Hc'. apply lookup_lt_Some in Hc'.
        rewrite length_app in Hc'. simpl in Hc'. lia.
    + assert (Hx' : getattr_doc x = PyNone)
        by (by destruct (decide (getattr_doc x = PyNone))).
      destruct IH as [(Hd & i & c & Hi & Hc & Hafter)|[Hd Hall]].
      * left. split; [done|]. exists i, c. split_and!.
        -- by rewrite lookup_app_l by (by eapply lookup_lt_Some).
        -- done.
        -- intros j c' Hj Hc'.
           destruct (decide (j < length l)) as [Hlt|Hge].
           ++ rewrite lookup_app_l in Hc' by done. by eapply Hafter.
           ++ rewrite lookup_app_r in Hc' by lia.
              destruct (j - length l) as [|?]; simpl in Hc'; [|done].
              by injection Hc' as <-.
      * right. split; [done|]. intros c [Hc|Hc]%elem_of_app; [by apply Hall|].
        by apply list_elem_of_singleton in Hc as ->.
Qed.

(** C5: without a [doc] option, [doc] is the documentation of the last
    column that has one (the first found when the normalized columns are
    scanned in reverse), and [None] when no column has one; a [doc] option
    is stored as it is given. *)
Theorem doc_of_construction
    (cols : list Expr) (kw : gmap string pyobj) (n n' : nat)
    (p : ColumnProperty) :
  init cols kw n = (inr p, n') ->
  (forall v, kw !! "doc" = Some v -> doc p = v)
  /\ (kw !! "doc" = None ->
      (doc p <> PyNone
       /\ exists i c, columns p !! i = Some c /\ getattr_doc c = doc p
          /\ forall j c', i < j -> columns p !! j = Some c' ->
                          getattr_doc c' = PyNone)
      \/ (doc p = PyNone
          /\ forall c, c ∈ columns p -> getattr_doc c = PyNone)).
Proof.
  intros (orig & cs & _ & _ & _ & -> & _)%init_success. simpl. split.
  - by intros v ->.
  - intros ->. apply doc_loop_rev.
Qed.



(** The constructor accepts every dictionary of known options when there
    is no column to coerce. *)
Lemma init_no_columns (kw : gmap string pyobj) (n : nat) :
  (forall k, is_Some (kw !! k) -> k ∈ known_options) ->
  init [] kw n = (inr (built getattr_doc [] [] kw n), S n).
Proof.
  intros Hk. rewrite init_unfold. simpl.
  case_decide as Hl; [|done]. destruct Hl. apply map_empty. intros k.
  rewrite lookup_leftover. case_decide as Hin; [done|].
  destruct (kw !! k) eqn:E; [|done]. destruct Hin. apply Hk. by rewrite E.
Qed.


(** ** Properties of [copy] *)

Local Abbreviation copy_kwargs p :=
  (<["deferred" := deferred p]>
     (<["group" := group p]>
        (<["active_history" := active_history p]> (∅ : gmap string pyobj)))).

Lemma copy_kwargs_known (p : @ColumnProperty Expr) :
  leftover (copy_kwargs p) = ∅.
Proof.
  apply map_empty. intros k. rewrite lookup_leftover.
  case_decide as Hin; [done|].
  rewrite !lookup_insert_ne, lookup_empty; [done|..];
    intros <-; apply Hin; unfold known_options; set_solver.
Qed.

Lemma copy_unfold (p : @ColumnProperty Expr) (n : nat) :
  copy expect _orm_full_deannotate getattr_doc p n =
  match comprehension expect (columns p) with
  | inl e => (inl e, n)
  | inr orig =>
    match normalize (columns p) with
    | inl e => (inl e, n)
    | inr cs => (inr (built getattr_doc orig cs (copy_kwargs p) n), S n)
    end
  end.
Proof.
  unfold copy. rewrite init_unfold, copy_kwargs_known.
  destruct (comprehension expect (columns p)); [done|].
  destruct (normalize (columns p)); [done|].
  by case_decide.
Qed.

(** C2, as the code has it: a copy is a fresh construction from the
    original's [columns] that carries over [deferred], [group] and
    [active_history]; every other option has its default, [doc] is derived
    from the columns again and [strategy_key] is rebuilt from the carried
    [deferred]. The copy's columns are the original's, normalized once
    more, and are the original's list where normalizing leaves those
    columns as they are, in which case the copy is returned. *)
Theorem copy_preserves_and_resets (p : @ColumnProperty Expr) (n : nat) :
  (forall q n',
      copy expect _orm_full_deannotate getattr_doc p n = (inr q, n') ->
      deferred q = deferred p
      /\ group q = group p
      /\ active_history q = active_history p
      /\ raiseload q = PyBool false
      /\ instrument q = PyBool true
      /\ comparator_factory q = Comparator_class
      /\ descriptor q = PyNone
      /\ expire_on_flush q = PyBool true
      /\ info q = None
      /\ doc q = doc_loop getattr_doc (rev (columns q))
      /\ strategy_key q
         = [("deferred", deferred p); ("instrument", PyBool true)]
      /\ _creation_order q = n /\ n' = S n
      /\ length (columns q) = length (columns p)
      /\ (forall i c, columns p !! i = Some c ->
          exists d, columns q !! i = Some d
                    /\ expect_deannotated expect _orm_full_deannotate c = inr d))
  /\ ((forall c, c ∈ columns p ->
         expect c = inr c /\ expect_deannotated expect _orm_full_deannotate c = inr c) ->
      exists q,
        copy expect _orm_full_deannotate getattr_doc p n = (inr q, S n)
        /\ columns q = columns p).
Proof.
  split.
  - intros q n'. rewrite copy_unfold.
    destruct (comprehension expect (columns p)) as [e|orig]; [discriminate|].
    destruct (normalize (columns p)) as [e|cs] eqn:Hc; [discriminate|].
    intros [= <- <-]. simpl. simplify_map_eq.
    split_and!; try done.
    + by eapply comprehension_length.
    + intros i c Hi.
      destruct (comprehension_lookup _ _ _ _ _ Hc Hi) as (d & ? & ?).
      by exists d.
  - intros Hfix. rewrite copy_unfold.
    rewrite (comprehension_fixed expect) by (intros c Hc; by apply Hfix).
    rewrite (comprehension_fixed (expect_deannotated expect _orm_full_deannotate))
      by (intros c Hc; by apply Hfix).
    by eexists.
Qed.

(** ** Properties of [do_init] *)

Variable str_expr : Expr -> string.

(** C7: [do_init] never raises; it warns, once, exactly when the property
    has more than one column and all its columns are among the parent
    mapper's primary-key columns. *)
Theorem do_init_warns_iff (self : @MappedProperty Expr Adapter) :
  let cols := columns (prop_self self) in
  (1 < length cols /\ cols ⊆ primary_key (parent self) ->
   exists msg, do_init str_expr self = inr [SuperDoInit; Warn msg])
  /\ (~ (1 < length cols /\ cols ⊆ primary_key (parent self)) ->
      do_init str_expr self = inr [SuperDoInit]).
Proof.
  intros cols. unfold do_init. fold cols. split.
  - intros [Hlen Hsub].
    rewrite !bool_decide_eq_true_2 by done. simpl.
    destruct cols as [|c0 [|c1 rest]]; simpl in *; try lia.
    by eexists.
  - intros Hnot.
    destruct (bool_decide (1 < length cols)) eqn:E1; [|done].
    destruct (bool_decide (cols ⊆ primary_key (parent self))) eqn:E2; [|done].
    apply bool_decide_eq_true in E1, E2. by destruct Hnot.
Qed.

(** ** Properties of [merge] *)

Variable has_identity : InstanceState -> bool.
Variable impl_set :
  string -> InstanceState -> gmap string pyobj -> pyobj -> pyobj ->
  InstanceState * gmap string pyobj.
Variable _expire_attributes :
  InstanceState -> gmap string pyobj -> list string -> bool ->
  InstanceState * gmap string pyobj.

Local Abbreviation merge_ :=
  (merge (Expr := Expr) (Adapter := Adapter)
     has_identity impl_set _expire_attributes).

(** C1: the branches of [merge]. An uninstrumented property changes
    nothing. Otherwise a value present in the source is stored directly in
    the destination dictionary, with no call to the attribute
    implementation, when [load] is false, and is handed to the attribute
    implementation's [set] when [load] is true; a value absent from the
    source, for a destination with an identity that lacks the key too,
    leads to one call of [_expire_attributes] for that key with
    [no_loader=True] and to no store by [merge] itself. *)
Theorem merge_branches
    (self : @MappedProperty Expr Adapter)
    (source_dict dest_dict : gmap string pyobj)
    (dest_state : InstanceState) (load : bool) :
  let r := merge_ self source_dict dest_state dest_dict load in
  (truthy (instrument (prop_self self)) = false ->
   r = mkMerged dest_state dest_dict [])
  /\ (truthy (instrument (prop_self self)) = true ->
      forall value, source_dict !! key self = Some value ->
      (load = false ->
       dest_dict_after r = <[key self := value]> dest_dict
       /\ dest_state_after r = dest_state
       /\ calls r = [])
      /\ (load = true ->
          calls r = [ImplSet (key self) value PyNone]
          /\ (dest_state_after r, dest_dict_after r)
             = impl_set (key self) dest_state dest_dict value PyNone))
  /\ (truthy (instrument (prop_self self)) = true ->
      source_dict !! key self = None ->
      has_identity dest_state = true ->
      dest_dict !! key self = None ->
      calls r = [ExpireAttributes [key self] true]
      /\ (dest_state_after r, dest_dict_after r)
         = _expire_attributes dest_state dest_dict [key self] true).
Proof.
  intros r. subst r. unfold merge. split_and!.
  - by intros ->.
  - intros -> value ->. simpl. split.
    + by intros ->.
    + intros ->. simpl. by destruct (impl_set _ _ _ _ _).
  - intros -> -> -> Hd. simpl.
    rewrite bool_decide_eq_true_2 by done.
    by destruct (_expire_attributes _ _ _ _).
Qed.

(** ** Properties of the comparator *)

Variable traverse : Adapter -> Expr -> Expr.
Variable _annotate : Expr -> gmap string (@annotation Expr Entity) -> Expr.
Variable _set_propagate_attrs :
  Expr -> gmap string (@annotation Expr Entity) -> Expr.

Local Abbreviation annotate_column :=
  (_orm_annotate_column traverse _annotate _set_propagate_attrs).

(** What [_orm_annotate_column] hands to [_annotate] and
    [_set_propagate_attrs]: the column, passed through the polymorphic
    adapter when the parent mapper has one, the dictionary of the four
    tags, with [adapt_column] for the column before adaptation in that
    case, and the two plugin attributes. *)
Lemma orm_annotate_column_tags
    (self : @Comparator Expr Adapter Entity) (c : Expr) :
  exists col ann attrs,
    annotate_column self c = _set_propagate_attrs (_annotate col ann) attrs
    /\ ann !! "entity_namespace" = Some (AnnEntity (_parententity self))
    /\ ann !! "parententity" = Some (AnnEntity (_parententity self))
    /\ ann !! "parentmapper" = Some (AnnEntity (_parententity self))
    /\ ann !! "orm_key" = Some (AnnStr (key (prop self)))
    /\ match _polymorphic_adapter (_parentmapper self) with
       | Some pa =>
           col = traverse pa c /\ ann !! "adapt_column" = Some (AnnColumn c)
       | None => col = c /\ ann !! "adapt_column" = None
       end
    /\ (forall k, k ∉ ["entity_namespace"; "parententity"; "parentmapper";
                       "orm_key"; "adapt_column"] -> ann !! k = None)
    /\ attrs !! "compile_state_plugin" = Some (AnnStr "orm")
    /\ attrs !! "plugin_subject" = Some (AnnEntity (_parententity self))
    /\ (forall k, k ∉ ["compile_state_plugin"; "plugin_subject"] ->
        attrs !! k = None).
Proof.
  unfold _orm_annotate_column.
  destruct (_polymorphic_adapter (_parentmapper self)) as [pa|];
    eexists _, _, _; (split; [reflexivity|]); split_and!;
    try reflexivity;
    try (repeat (rewrite lookup_insert_ne by done);
         first [by rewrite lookup_insert_eq | by rewrite lookup_empty]).
  all: intros k Hk; rewrite ?lookup_insert_ne, lookup_empty; [done|..];
    intros <-; apply Hk; apply (bool_decide_unpack _); by vm_compute.
Qed.

(** C8: with an adapter bound, the clause element is the adapter applied
    to [columns[0]] and the key, whatever the annotation procedure does;
    with no adapter bound, [expressions] has one entry per column, in
    column order, and entry [i] is column [i] annotated: the result of
    [_annotate], then [_set_propagate_attrs], on the column (adapted by the
    parent mapper's polymorphic adapter when there is one) with the tags
    [entity_namespace], [parententity], [parentmapper] for the parent
    entity and [orm_key] for the property's key. *)
Theorem comparator_clause_element_and_expressions
    (self : @Comparator Expr Adapter Entity) :
  let cols := columns (prop_self (prop self)) in
  (forall adapt c0,
      adapter self = Some adapt -> cols !! 0 = Some c0 ->
      __clause_element__ traverse _annotate _set_propagate_attrs self
      = inr (adapt c0 (key (prop self))))
  /\ (adapter self = None ->
      let es := expressions traverse _annotate _set_propagate_attrs self in
      length es = length cols
      /\ (forall i, es !! i = annotate_column self <$> cols !! i)
      /\ forall i c, cols !! i = Some c ->
           exists col ann attrs,
             es !! i = Some (_set_propagate_attrs (_annotate col ann) attrs)
             /\ ann !! "entity_namespace"
                = Some (AnnEntity (_parententity self))
             /\ ann !! "parententity" = Some (AnnEntity (_parententity self))
             /\ ann !! "parentmapper" = Some (AnnEntity (_parententity self))
             /\ ann !! "orm_key" = Some (AnnStr (key (prop self)))
             /\ match _polymorphic_adapter (_parentmapper self) with
                | Some pa =>
                    col = traverse pa c
                    /\ ann !! "adapt_column" = Some (AnnColumn c)
                | None => col = c /\ ann !! "adapt_column" = None
                end
             /\ (forall k,
                   k ∉ ["entity_namespace"; "parententity"; "parentmapper";
                        "orm_key"; "adapt_column"] -> ann !! k = None)
             /\ attrs !! "compile_state_plugin" = Some (AnnStr "orm")
             /\ attrs !! "plugin_subject"
                = Some (AnnEntity (_parententity self))
             /\ (forall k, k ∉ ["compile_state_plugin"; "plugin_subject"] ->
                 attrs !! k = None)).
Proof.
  intros cols. split.
  - intros adapt c0 Ha H0. unfold __clause_element__, getitem.
    fold cols. by rewrite Ha, H0.
  - intros Ha es. subst es. unfold expressions. fold cols. rewrite Ha.
    split; [apply length_map|]. split; [intros i; apply list_lookup_fmap|].
    intros i c Hi.
    destruct (orm_annotate_column_tags self c) as (col & ann & attrs & Heq & Htags).
    exists col, ann, attrs. split; [|exact Htags].
    by rewrite list_lookup_fmap, Hi, <- Heq.
Qed.

End Properties.

(** ** The properties on the sample SQL layer *)

Import Sample.

(** The scenarios of [merge] on an attribute [x] whose source value is 5. *)
Lemma merge_branches_witness :
  let src : gmap string pyobj := {["x" := PyInt 5]} in
  (* an uninstrumented property *)
  merge_ hidden_prop src true ∅ true = mkMerged true ∅ []
  (* the value is present, load is false *)
  /\ (dest_dict_after (merge_ x_prop src true ∅ false) = <["x" := PyInt 5]> ∅
      /\ dest_state_after (merge_ x_prop src true ∅ false) = true
      /\ calls (merge_ x_prop src true ∅ false) = [])
  (* the value is present, load is true *)
  /\ calls (merge_ x_prop src true ∅ true) = [ImplSet "x" (PyInt 5) PyNone]
  (* the value is absent on both sides, the destination has an identity *)
  /\ calls (merge_ x_prop ∅ true ∅ false) = [ExpireAttributes ["x"] true].
Proof.
  intros src. unfold merge_. refine (conj _ (conj _ (conj _ _))).
  - destruct (merge_branches (fun st : bool => st) impl_set expire_attributes
                hidden_prop src ∅ true true) as (Hoff & _ & _).
    by apply Hoff.
  - destruct (merge_branches (fun st : bool => st) impl_set expire_attributes
                x_prop src ∅ true false) as (_ & Hpresent & _).
    destruct (Hpresent eq_refl (PyInt 5) eq_refl) as [Hraw _].
    by apply Hraw.
  - destruct (merge_branches (fun st : bool => st) impl_set expire_attributes
                x_prop src ∅ true true) as (_ & Hpresent & _).
    destruct (Hpresent eq_refl (PyInt 5) eq_refl) as [_ Hset].
    by apply Hset.
  - destruct (merge_branches (fun st : bool => st) impl_set expire_attributes
                x_prop ∅ ∅ true false) as (_ & _ & Habsent).
    by apply Habsent.
Defined.

(** The copy of a property built with [deferred=True] has [deferred]
    [True], not [False]. *)
Lemma copy_of_deferred_stays_deferred :
  init [name_col] with_deferred 3 = (inr deferred_prop, 4)
  /\ deferred deferred_prop = PyBool true
  /\ exists q,
       copy expect deannotate getattr_doc deferred_prop 4 = (inr q, 5)
       /\ deferred q = PyBool true
       /\ deferred q <> PyBool false.
Proof.
  split; [by vm_compute|]. split; [by vm_compute|].
  eexists. split; [by vm_compute|]. by split.
Qed.

(** The copy of the deferred sample property. *)
Lemma copy_preserves_and_resets_witness :
  exists q,
    copy expect deannotate getattr_doc deferred_prop 4 = (inr q, 5)
    /\ columns q = columns deferred_prop
    /\ deferred q = deferred deferred_prop
    /\ strategy_key q = [("deferred", PyBool true); ("instrument", PyBool true)].
Proof.
  destruct (copy_preserves_and_resets expect deannotate getattr_doc
              deferred_prop 4) as [Hfields Hreturns].
  destruct Hreturns as (q & Hq & Hcols).
  { intros c Hc. apply list_elem_of_singleton in Hc as ->. by vm_compute. }
  exists q. split; [done|]. split; [done|].
  destruct (Hfields q 5 Hq) as (Hd & _ & _ & _ & _ & _ & _ & _ & _ & _ & Hk & _).
  split; [done|]. by rewrite Hk.
Defined.

(** The strategy key of a property built with [raiseload=True]. *)
Lemma strategy_key_of_construction_witness :
  exists p,
    init [id_col] with_raiseload 0 = (inr p, 1)
    /\ strategy_key p
       = [("deferred", PyBool false); ("instrument", PyBool true);
          ("raiseload", PyBool true)].
Proof.
  destruct (strategy_key_of_construction expect deannotate getattr_doc
              [id_col] with_raiseload 0 1 _
              ltac:(vm_compute; reflexivity))
    as (_ & _ & _ & _ & Hkey & _).
  eexists. split; [by vm_compute|]. by apply Hkey.
Defined.



(** The [doc] of the last documented column, and a [doc] option of [None]. *)
Lemma doc_of_construction_witness :
  exists p,
    init [name_col; nick_col; id_col] no_options 0 = (inr p, 1)
    /\ doc p = PyStr "the nick"
    /\ exists p',
         init [name_col] with_doc_none 1 = (inr p', 2)
         /\ doc p' = PyNone.
Proof.
  destruct (doc_of_construction expect deannotate getattr_doc
              [name_col; nick_col; id_col] no_options 0 1 _
              ltac:(vm_compute; reflexivity)) as [_ Hscan].
  destruct (doc_of_construction expect deannotate getattr_doc
              [name_col] with_doc_none 1 2 _
              ltac:(vm_compute; reflexivity)) as [Hgiven _].
  eexists. split; [by vm_compute|]. split.
  - by destruct (Hscan eq_refl) as [(_ & i & c & Hi & Hc & Hafter)|[Hnone _]].
  - eexists. split; [by vm_compute|]. by apply Hgiven.
Defined.




(** [raiseload=True] alone leaves [deferred] at [False]. *)
Lemma raiseload_leaves_deferred_false_witness :
  exists p,
    init [id_col] with_raiseload 0 = (inr p, 1)
    /\ deferred p = PyBool false
    /\ raiseload p = PyBool true.
Proof.
  destruct (raiseload_leaves_deferred_false expect deannotate getattr_doc
              [id_col] with_raiseload 0 1 _
              eq_refl eq_refl ltac:(vm_compute; reflexivity))
    as (Hd & Hr & _).
  eexists. split; [by vm_compute|]. by split.
Defined.

(** Both primary-key columns under one attribute: a warning; a single
    column: none. *)
Lemma do_init_warns_iff_witness :
  (exists msg, do_init str_expr pk_prop = inr [SuperDoInit; Warn msg])
  /\ do_init str_expr x_prop = inr [SuperDoInit].
Proof.
  split.
  - apply (do_init_warns_iff str_expr pk_prop). split; [simpl; lia|].
    by intros c Hc.
  - apply (do_init_warns_iff str_expr x_prop). intros [Hlen _].
    simpl in Hlen. lia.
Defined.

(** A comparator under an alias adapter, and one with no adapter, whose
    expressions are the annotated primary-key columns. *)
Lemma comparator_clause_element_and_expressions_witness :
  __clause_element__ traverse annotate set_propagate_attrs
    (comparator_of pk_prop (Some alias_adapter))
  = inr (alias_adapter id_col "id")
  /\ length (expressions traverse annotate set_propagate_attrs
               (comparator_of pk_prop None)) = 2
  /\ expressions traverse annotate set_propagate_attrs
       (comparator_of pk_prop None) !! 0
     = Some (Col "users.id" PyNone true).
Proof.
  split.
  - by apply (comparator_clause_element_and_expressions traverse annotate
                set_propagate_attrs (comparator_of pk_prop (Some alias_adapter))).
  - destruct (comparator_clause_element_and_expressions traverse annotate
                set_propagate_attrs (comparator_of pk_prop None))
      as [_ Hplain].
    destruct (Hplain eq_refl) as (Hlen & _ & Hentry).
    split; [exact Hlen|].
    destruct (Hentry 0 id_col eq_refl)
      as (col & ann & attrs & Hes & _ & Hpe & _ & _ & [-> _] & _).
    rewrite Hes. unfold set_propagate_attrs, annotate, id_col.
    by rewrite Hpe.
Defined.

(** ** More on comprehensions *)

Section ComprehensionOutcome.
Context {A B : Type} (f : A -> result B).

Lemma comprehension_succeeds_iff (l : list A) :
  (exists bs, comprehension f l = inr bs)
  <-> forall a, a ∈ l -> exists b, f a = inr b.
Proof.
  induction l as [|x l IH]; simpl.
  - split; [by intros _ a ?%elem_of_nil|by eexists].
  - split.
    + intros [bs (b & bs' & _ & Hb & Hl)%comprehension_cons_inv].
      intros a [->|Ha]%elem_of_cons; [by eexists|].
      apply IH; [by eexists|done].
    + intros Hall. destruct (Hall x) as [b Hb]; [by left|].
      destruct (proj2 IH) as [bs Hbs]; [intros a Ha; apply Hall; by right|].
      exists (b :: bs). by rewrite Hb, Hbs.
Qed.

Lemma comprehension_fails_inv (l : list A) (e : exn) :
  comprehension f l = inl e -> exists a, a ∈ l /\ f a = inl e.
Proof.
  induction l as [|x l IH]; simpl; [discriminate|].
  destruct (f x) as [e'|b] eqn:Hx; simpl.
  - intros [= <-]. exists x. split; [by left|done].
  - destruct (comprehension f l) as [e'|bs]; simpl; [|discriminate].
    intros [= <-]. destruct IH as (a & Ha & Hfa); [done|].
    exists a. split; [by right|done].
Qed.

Lemma comprehension_first_failure (l1 l2 : list A) (c : A) (e : exn) :
  (forall a, a ∈ l1 -> exists b, f a = inr b) -> f c = inl e ->
  comprehension f (l1 ++ c :: l2) = inl e.
Proof.
  intros Hok Hc. induction l1 as [|x l1 IH]; simpl.
  - by rewrite Hc.
  - destruct (Hok x) as [b ->]; [by left|]. simpl.
    rewrite IH; [done|]. intros a Ha. apply Hok. by right.
Qed.

End ComprehensionOutcome.

(** Strictly increasing lists of strings are determined by their elements. *)
Lemma str_sorted_unique (l1 l2 : list string) :
  StronglySorted str_lt l1 -> StronglySorted str_lt l2 ->
  (forall k, k ∈ l1 <-> k ∈ l2) -> l1 = l2.
Proof.
  assert (Hirr : forall a, ~ str_lt a a).
  { intros a Ha. by apply str_lt_le_ne in Ha as [_ ?]. }
  assert (Hnd : forall l, StronglySorted str_lt l -> NoDup l).
  { intros l Hl. induction Hl as [|x l _ IH Hx]; constructor; [|done].
    intros Hin. eapply Forall_forall in Hx; [|done]. by eapply Hirr. }
  intros H1 H2 Hel. apply (StronglySorted_unique_strong str_lt); try done.
  - intros a b _ _ Hab Hba. destruct (Hirr a). by transitivity b.
  - apply NoDup_Permutation; auto.
Qed.

(** ** The outcomes of the constructor *)

Section Construction.

Context {Expr : Type}.
Variable expect : Expr -> result Expr.
Variable _orm_full_deannotate : Expr -> result Expr.
Variable getattr_doc : Expr -> pyobj.

Local Abbreviation init := (__init__ expect _orm_full_deannotate getattr_doc).
Local Abbreviation normalize :=
  (comprehension (expect_deannotated expect _orm_full_deannotate)).

Lemma expect_deannotated_inr (c d' : Expr) :
  expect_deannotated expect _orm_full_deannotate c = inr d'
  <-> exists d, _orm_full_deannotate c = inr d /\ expect d = inr d'.
Proof.
  unfold expect_deannotated, bind.
  destruct (_orm_full_deannotate c) as [e|d]; split.
  - discriminate.
  - by intros (d & [=] & _).
  - intros H. by exists d.
  - by intros (d0 & [= <-] & H).
Qed.

Lemma expect_deannotated_inl (c : Expr) (e : exn) :
  expect_deannotated expect _orm_full_deannotate c = inl e
  <-> _orm_full_deannotate c = inl e
      \/ exists d, _orm_full_deannotate c = inr d /\ expect d = inl e.
Proof.
  unfold expect_deannotated, bind.
  destruct (_orm_full_deannotate c) as [e0|d]; split.
  - intros [= <-]. by left.
  - intros [[= <-]|(d & [=] & _)]. done.
  - intros H. right. by exists d.
  - intros [[=]|(d0 & [= <-] & H)]. done.
Qed.

Lemma leftover_empty_iff (kw : gmap string pyobj) :
  leftover kw = ∅ <-> forall k, is_Some (kw !! k) -> k ∈ known_options.
Proof.
  split.
  - intros Hl k Hk. pose proof (lookup_leftover kw k) as Hlk.
    rewrite Hl, lookup_empty in Hlk. case_decide; [done|].
    rewrite <- Hlk in Hk. by destruct Hk.
  - intros Hk. apply map_empty. intros k. rewrite lookup_leftover.
    case_decide as Hin; [done|]. destruct (kw !! k) eqn:E; [|done].
    destruct Hin. apply Hk. by rewrite E.
Qed.

(** X1: for keyword values whose truth test returns and columns whose
    [doc] can be read, the constructor returns a property exactly when
    every positional value passes the coercion as given, can be
    de-annotated, and passes the coercion once de-annotated, and every
    keyword is one of the ten options. *)
Theorem init_succeeds_iff
    (cols : list Expr) (kw : gmap string pyobj) (n : nat) :
  (exists p n', init cols kw n = (inr p, n'))
  <-> (forall c, c ∈ cols ->
         (exists o, expect c = inr o)
         /\ exists d d', _orm_full_deannotate c = inr d /\ expect d = inr d')
      /\ (forall k, is_Some (kw !! k) -> k ∈ known_options).
Proof.
  rewrite init_unfold. split.
  - intros (p & n' & Hp).
    destruct (comprehension expect cols) as [e|orig] eqn:Ho; [discriminate|].
    destruct (normalize cols) as [e|cs] eqn:Hc; [discriminate|].
    case_decide as Hl; [discriminate|]. split.
    + intros c Hin. split.
      * eapply (comprehension_succeeds_iff expect); [by eexists|done].
      * destruct (proj1 (comprehension_succeeds_iff
                           (expect_deannotated expect _orm_full_deannotate)
                           cols) (ex_intro _ cs Hc) c Hin) as [d' Hd'].
        apply expect_deannotated_inr in Hd' as (d & ? & ?). by exists d, d'.
    + apply leftover_empty_iff. by destruct (decide (leftover kw = ∅)).
  - intros [Hcols Hkw].
    destruct (proj2 (comprehension_succeeds_iff expect cols)) as [orig ->];
      [intros c Hc; by apply Hcols|].
    destruct (proj2 (comprehension_succeeds_iff
                       (expect_deannotated expect _orm_full_deannotate) cols))
      as [cs ->].
    { intros c Hc. destruct (Hcols c Hc) as [_ (d & d' & ? & ?)].
      exists d'. apply expect_deannotated_inr. by exists d. }
    apply leftover_empty_iff in Hkw. rewrite Hkw.
    case_decide; [done|]. by eexists _, _.
Qed.

(** X2: for keyword values whose truth test returns and columns whose
    [doc] can be read, a failed construction leaves the creation counter as
    it was, and its exception is the one that the coercion raised for one
    of the columns as given, or that de-annotating one of them raised, or
    that the coercion raised for one of them once de-annotated, or else
    the [TypeError] that lists a non-empty set of keywords, all of them
    present in the call and none of them an option. *)
Theorem init_failure_cases
    (cols : list Expr) (kw : gmap string pyobj) (n n' : nat) (e : exn) :
  init cols kw n = (inl e, n') ->
  n' = n
  /\ ((exists c, c ∈ cols
         /\ (expect c = inl e
             \/ _orm_full_deannotate c = inl e
             \/ exists d, _orm_full_deannotate c = inr d /\ expect d = inl e))
      \/ exists ks,
           ks <> []
           /\ e = TypeError
                    ("ColumnProperty received unexpected keyword argument(s): "
                     +:+ join ", " ks)
           /\ forall k, k ∈ ks -> is_Some (kw !! k) /\ k ∉ known_options).
Proof.
  rewrite init_unfold.
  destruct (comprehension expect cols) as [e1|orig] eqn:Ho.
  { intros [= <- <-]. split; [done|]. left.
    apply comprehension_fails_inv in Ho as (c & Hc & He). eauto. }
  destruct (normalize cols) as [e2|cs] eqn:Hc.
  { intros [= <- <-]. split; [done|]. left.
    apply comprehension_fails_inv in Hc as (c & Hin & He).
    apply expect_deannotated_inl in He. eauto. }
  case_decide as Hl; [|discriminate].
  intros [= <- <-]. split; [done|]. right.
  exists (sorted_keys (leftover kw)). split_and!.
  - intros Hnil. apply Hl, map_empty. intros k.
    destruct (leftover kw !! k) eqn:E; [|done].
    assert (Hin : k ∈ sorted_keys (leftover kw))
      by (apply elem_of_sorted_keys; by rewrite E).
    rewrite Hnil in Hin. by apply elem_of_nil in Hin.
  - done.
  - intros k Hk%elem_of_sorted_keys. rewrite lookup_leftover in Hk.
    by case_decide; [destruct Hk|].
Qed.

(** X3: the coercion comes first. The first column, in argument order, that
    the coercion rejects decides the exception, whatever the later columns
    and the keywords are; when all columns are accepted as given, the first
    one rejected after de-annotation decides it. *)
Theorem init_first_coercion_error_wins
    (l1 l2 : list Expr) (c : Expr) (kw : gmap string pyobj) (n : nat)
    (e : exn) :
  (forall a, a ∈ l1 -> exists b, expect a = inr b) ->
  (expect c = inl e -> init (l1 ++ c :: l2)%list kw n = (inl e, n))
  /\ ((forall a, a ∈ (l1 ++ c :: l2)%list -> exists b, expect a = inr b) ->
      (forall a, a ∈ l1 -> exists b, expect_deannotated expect _orm_full_deannotate a = inr b) ->
      expect_deannotated expect _orm_full_deannotate c = inl e ->
      init (l1 ++ c :: l2)%list kw n = (inl e, n)).
Proof.
  intros Hl1. split.
  - intros Hc. rewrite init_unfold.
    by rewrite (comprehension_first_failure expect l1 l2 c e).
  - intros Hall Hd1 Hc. rewrite init_unfold.
    destruct (proj2 (comprehension_succeeds_iff expect (l1 ++ c :: l2)%list) Hall)
      as [orig ->].
    by rewrite (comprehension_first_failure
                  (expect_deannotated expect _orm_full_deannotate) l1 l2 c e).
Qed.

(** X4: the options do not interfere: after a successful construction each
    of [group], [comparator_factory], [descriptor], [active_history] and
    [expire_on_flush] holds the value passed under its own keyword, or its
    default, and the [info] slot is assigned exactly when [info] was
    passed. *)
Theorem init_options_stored
    (cols : list Expr) (kw : gmap string pyobj) (n n' : nat)
    (p : ColumnProperty) :
  init cols kw n = (inr p, n') ->
  group p = default PyNone (kw !! "group")
  /\ comparator_factory p = default Comparator_class (kw !! "comparator_factory")
  /\ descriptor p = default PyNone (kw !! "descriptor")
  /\ active_history p = default (PyBool false) (kw !! "active_history")
  /\ expire_on_flush p = default (PyBool true) (kw !! "expire_on_flush")
  /\ info p = kw !! "info".
Proof.
  by intros (orig & cs & _ & _ & _ & -> & _)%init_success.
Qed.

(** X5: the outcome of a call with an unrecognized keyword depends on the
    keywords only through the set of unrecognized ones: two dictionaries
    with the same unrecognized keys, whatever their values and their other
    entries, fail with the same exception. *)
Theorem unexpected_message_same_unknown_keys
    (cols : list Expr) (kw1 kw2 : gmap string pyobj) (n : nat) :
  (exists k, is_Some (kw1 !! k) /\ k ∉ known_options) ->
  (forall k, k ∉ known_options -> is_Some (kw1 !! k) <-> is_Some (kw2 !! k)) ->
  exists e, init cols kw1 n = (inl e, n) /\ init cols kw2 n = (inl e, n).
Proof.
  intros (k0 & Hk0 & Hun) Hsame.
  assert (Hne : forall kw, is_Some (kw !! k0) -> leftover kw <> ∅).
  { intros kw Hk Hl. apply (proj1 (leftover_empty_iff kw)) in Hk; done. }
  assert (Hkeys : sorted_keys (leftover kw1) = sorted_keys (leftover kw2)).
  { apply str_sorted_unique; [apply sorted_keys_increasing..|].
    intros k. rewrite !elem_of_sorted_keys, !lookup_leftover.
    case_decide; [done|]. by apply Hsame. }
  rewrite !init_unfold.
  destruct (comprehension expect cols); [by eexists|].
  destruct (normalize cols); [by eexists|].
  rewrite Hkeys. repeat case_decide; try by eexists.
  - destruct (Hne kw2); [by apply Hsame|done].
  - by destruct (Hne kw1).
  - by destruct (Hne kw1).
Qed.

(** X6: with exactly one unrecognized keyword the message ends with that
    keyword alone, without a separator, whatever options accompany it. *)
Theorem single_unknown_key_message
    (cols orig cs : list Expr) (kw : gmap string pyobj) (k : string)
    (n : nat) :
  comprehension expect cols = inr orig -> normalize cols = inr cs ->
  is_Some (kw !! k) -> k ∉ known_options ->
  (forall k', is_Some (kw !! k') -> k' <> k -> k' ∈ known_options) ->
  init cols kw n
  = (inl (TypeError
            ("ColumnProperty received unexpected keyword argument(s): "
             +:+ k)), n).
Proof.
  intros Ho Hc Hk Hun Honly. rewrite init_unfold, Ho, Hc.
  assert (Hkeys : sorted_keys (leftover kw) = [k]).
  { apply str_sorted_unique; [apply sorted_keys_increasing|by repeat constructor|].
    intros k'. rewrite elem_of_sorted_keys, lookup_leftover, list_elem_of_singleton.
    case_decide as Hin; split.
    - by intros [].
    - by intros ->.
    - intros Hk'. destruct (decide (k' = k)); [done|].
      destruct Hin. by apply Honly.
    - by intros ->. }
  assert (Hne : leftover kw <> ∅).
  { intros Hl. by apply (proj1 (leftover_empty_iff kw) Hl) in Hk. }
  case_decide; [|done]. by rewrite Hkeys.
Qed.

End Construction.

(** ** More on [copy] *)

Section Copying.

Context {Expr : Type}.
Variable expect : Expr -> result Expr.
Variable _orm_full_deannotate : Expr -> result Expr.
Variable getattr_doc : Expr -> pyobj.

Local Abbreviation copy_ := (copy expect _orm_full_deannotate getattr_doc).

(** X7: the keywords that [copy] passes are always accepted: a copy is
    returned exactly when each of the property's columns passes the
    coercion as stored, can be de-annotated and passes the coercion once
    de-annotated. *)
Theorem copy_succeeds_iff (p : @ColumnProperty Expr) (n : nat) :
  (exists q n', copy_ p n = (inr q, n'))
  <-> forall c, c ∈ columns p ->
        (exists o, expect c = inr o)
        /\ exists d d', _orm_full_deannotate c = inr d /\ expect d = inr d'.
Proof.
  unfold copy. rewrite init_succeeds_iff. split.
  - by intros [Hcols _].
  - intros Hcols. split; [done|]. apply leftover_empty_iff, copy_kwargs_known.
Qed.

(** X8: copying a copy changes nothing but the creation order and the
    retained original columns: where normalizing leaves the copy's columns
    as they are, the copy of a copy [q] is [q] with the next creation order
    and with [columns] as its [_orig_columns]. *)
Theorem copy_of_copy
    (p q : @ColumnProperty Expr) (n n1 : nat) :
  copy_ p n = (inr q, n1) ->
  (forall c, c ∈ columns q ->
     expect c = inr c /\ expect_deannotated expect _orm_full_deannotate c = inr c) ->
  copy_ q n1
  = (inr {| _orig_columns := columns q; columns := columns q;
            group := group q; deferred := deferred q;
            raiseload := raiseload q; instrument := instrument q;
            comparator_factory := comparator_factory q;
            descriptor := descriptor q;
            active_history := active_history q;
            expire_on_flush := expire_on_flush q;
            info := info q; doc := doc q;
            strategy_key := strategy_key q;
            _creation_order := n1 |}, S n1).
Proof.
  intros Hq Hfix.
  destruct (copy_preserves_and_resets expect _orm_full_deannotate getattr_doc
              p n) as [Hfields _].
  destruct (Hfields q n1 Hq)
    as (Hd & Hg & Ha & Hr & Hi & Hc & Hde & He & Hin & Hdoc & Hk & _).
  rewrite copy_unfold.
  rewrite (comprehension_fixed expect) by (intros c Hin'; by apply Hfix).
  rewrite (comprehension_fixed (expect_deannotated expect _orm_full_deannotate))
    by (intros c Hin'; by apply Hfix).
  unfold built. simplify_map_eq.
  rewrite Hr, Hi, Hc, Hde, He, Hin, Hdoc, Hk, Hd. done.
Qed.

End Copying.

(** ** More on [do_init], [merge], the comparator and the descriptor *)

Section Attached.

Context {Expr : Type} `{EqDecision Expr}.
Context {Adapter Entity InstanceState : Type}.
Variable str_expr : Expr -> string.

(** X9: the warning of [do_init] tests membership only: a primary-key
    column passed two or more times under one attribute is reported as
    combined with a distinct primary-key column, both names being its
    own. *)
Theorem do_init_repeated_column_warns
    (self : @MappedProperty Expr Adapter) (c : Expr) (k : nat) :
  c ∈ primary_key (parent self) ->
  columns (prop_self self) = replicate (S (S k)) c ->
  do_init str_expr self
  = inr [ SuperDoInit;
          Warn ("On mapper " +:+ mapper_str (parent self)
                +:+ ", primary key column '" +:+ str_expr c
                +:+ "' is being combined with distinct primary key column '"
                +:+ str_expr c +:+ "' in attribute '" +:+ key self
                +:+ "'. Use explicit properties to give each column its own "
                +:+ "mapped attribute name.") ].
Proof.
  intros Hpk Hcols. unfold do_init. rewrite Hcols.
  rewrite bool_decide_eq_true_2 by (simpl; lia).
  rewrite bool_decide_eq_true_2; [done|].
  intros x Hx. by apply elem_of_replicate in Hx as [-> _].
Qed.

Variable has_identity : InstanceState -> bool.
Variable impl_set :
  string -> InstanceState -> gmap string pyobj -> pyobj -> pyobj ->
  InstanceState * gmap string pyobj.
Variable _expire_attributes :
  InstanceState -> gmap string pyobj -> list string -> bool ->
  InstanceState * gmap string pyobj.

Local Abbreviation merge_ :=
  (merge (Expr := Expr) (Adapter := Adapter)
     has_identity impl_set _expire_attributes).

(** X10: when the source lacks the attribute and the destination either has
    no identity or already holds a value for it, [merge] does nothing: no
    store, no call, whatever [load] is. *)
Theorem merge_leaves_alone
    (self : @MappedProperty Expr Adapter)
    (source_dict dest_dict : gmap string pyobj)
    (dest_state : InstanceState) (load : bool) :
  source_dict !! key self = None ->
  has_identity dest_state = false \/ is_Some (dest_dict !! key self) ->
  merge_ self source_dict dest_state dest_dict load
  = mkMerged dest_state dest_dict [].
Proof.
  intros Hs Hd. unfold merge. rewrite Hs.
  destruct (truthy _); simpl; [|done].
  destruct Hd as [->|[v Hv]]; [done|].
  rewrite (bool_decide_eq_false_2 (dest_dict !! key self = None))
    by (by rewrite Hv).
  by rewrite andb_false_r.
Qed.

(** X11: [merge] makes at most one call to its collaborators, and which one
    is decided by the source: [set] only when [load] is true and the source
    holds the attribute, [_expire_attributes] only when the source lacks it;
    and the state and dictionary are as given whenever no call is made,
    except for the direct store of the source's value when [load] is
    false. *)
Theorem merge_call_log
    (self : @MappedProperty Expr Adapter)
    (source_dict dest_dict : gmap string pyobj)
    (dest_state : InstanceState) (load : bool) :
  let r := merge_ self source_dict dest_state dest_dict load in
  (calls r = []
   /\ dest_state_after r = dest_state
   /\ (dest_dict_after r = dest_dict
       \/ exists v, load = false /\ source_dict !! key self = Some v
            /\ dest_dict_after r = <[key self := v]> dest_dict))
  \/ (exists v, calls r = [ImplSet (key self) v PyNone]
        /\ load = true /\ source_dict !! key self = Some v)
  \/ (calls r = [ExpireAttributes [key self] true]
      /\ source_dict !! key self = None
      /\ has_identity dest_state = true
      /\ dest_dict !! key self = None).
Proof.
  intros r. subst r. unfold merge.
  destruct (truthy _); simpl; [|by left; eauto].
  destruct (source_dict !! key self) as [v|] eqn:Hs.
  - destruct load; simpl.
    + right. left. exists v. by destruct (impl_set _ _ _ _ _).
    + left. split_and!; try done. right. by exists v.
  - destruct (has_identity dest_state) eqn:Hid; simpl; [|by left; eauto].
    case_bool_decide as Hd; [|by left; eauto].
    right. right. by destruct (_expire_attributes _ _ _ _).
Qed.

(** X12: a merge with [load] false of an instrumented attribute that the
    source holds makes the destination agree with the source on that key,
    leaves every other key of the destination alone, and is idempotent. *)
Theorem merge_detached_store
    (self : @MappedProperty Expr Adapter)
    (source_dict dest_dict : gmap string pyobj)
    (dest_state : InstanceState) :
  truthy (instrument (prop_self self)) = true ->
  is_Some (source_dict !! key self) ->
  let r := merge_ self source_dict dest_state dest_dict false in
  dest_dict_after r !! key self = source_dict !! key self
  /\ (forall k, k <> key self -> dest_dict_after r !! k = dest_dict !! k)
  /\ merge_ self source_dict (dest_state_after r) (dest_dict_after r) false = r.
Proof.
  intros Hi [v Hv] r. subst r. unfold merge. rewrite Hi, Hv. simpl.
  split_and!.
  - by rewrite lookup_insert_eq.
  - intros k Hk. by rewrite lookup_insert_ne.
  - by rewrite insert_insert_eq.
Qed.

(** X13: a value stored by a merge with [load] false is not expired by a
    later merge from a source that lacks the attribute: the later merge
    finds the key in the destination and does nothing. *)
Theorem merge_stored_value_survives
    (self : @MappedProperty Expr Adapter)
    (source1 source2 dest_dict : gmap string pyobj)
    (dest_state : InstanceState) (v : pyobj) (load : bool) :
  truthy (instrument (prop_self self)) = true ->
  source1 !! key self = Some v ->
  source2 !! key self = None ->
  let r := merge_ self source1 dest_state dest_dict false in
  merge_ self source2 (dest_state_after r) (dest_dict_after r) load
  = mkMerged dest_state (<[key self := v]> dest_dict) [].
Proof.
  intros Hi H1 H2 r. subst r. unfold merge at 2 3. rewrite Hi, H1. simpl.
  apply merge_leaves_alone; [done|]. right. rewrite lookup_insert_eq. eauto.
Qed.

Variable traverse : Adapter -> Expr -> Expr.
Variable _annotate : Expr -> gmap string (@annotation Expr Entity) -> Expr.
Variable _set_propagate_attrs :
  Expr -> gmap string (@annotation Expr Entity) -> Expr.

Local Abbreviation annotate_column :=
  (_orm_annotate_column traverse _annotate _set_propagate_attrs).
Local Abbreviation clause_element :=
  (__clause_element__ traverse _annotate _set_propagate_attrs).
Local Abbreviation expressions_ :=
  (expressions traverse _annotate _set_propagate_attrs).

(** X14: the other two branches of the comparator: with an adapter bound,
    [expressions] holds the adapter applied to each column and the key, in
    column order; with no adapter bound, the clause element is [columns[0]]
    annotated: the result of [_annotate], then [_set_propagate_attrs], on
    the column (adapted by the parent mapper's polymorphic adapter when
    there is one) with the four tags of the parent entity and the key, and
    with [adapt_column] exactly when the column was adapted. *)
Theorem comparator_adapted_expressions_and_annotated_clause
    (self : @Comparator Expr Adapter Entity) :
  let cols := columns (prop_self (prop self)) in
  (forall adapt, adapter self = Some adapt ->
     length (expressions_ self) = length cols
     /\ forall i, expressions_ self !! i
                  = (fun col => adapt col (key (prop self))) <$> cols !! i)
  /\ (adapter self = None -> forall c0, cols !! 0 = Some c0 ->
      exists col ann attrs,
        clause_element self
        = inr (_set_propagate_attrs (_annotate col ann) attrs)
        /\ ann !! "entity_namespace" = Some (AnnEntity (_parententity self))
        /\ ann !! "parententity" = Some (AnnEntity (_parententity self))
        /\ ann !! "parentmapper" = Some (AnnEntity (_parententity self))
        /\ ann !! "orm_key" = Some (AnnStr (key (prop self)))
        /\ match _polymorphic_adapter (_parentmapper self) with
           | Some pa =>
               col = traverse pa c0
               /\ ann !! "adapt_column" = Some (AnnColumn c0)
           | None => col = c0 /\ ann !! "adapt_column" = None
           end
        /\ (forall k,
              k ∉ ["entity_namespace"; "parententity"; "parentmapper";
                   "orm_key"; "adapt_column"] -> ann !! k = None)
        /\ attrs !! "compile_state_plugin" = Some (AnnStr "orm")
        /\ attrs !! "plugin_subject" = Some (AnnEntity (_parententity self))
        /\ (forall k, k ∉ ["compile_state_plugin"; "plugin_subject"] ->
            attrs !! k = None)).
Proof.
  intros cols. split.
  - intros adapt Ha. unfold expressions. fold cols. rewrite Ha.
    split; [apply length_map|]. intros i. apply list_lookup_fmap.
  - intros Ha c0 H0.
    destruct (orm_annotate_column_tags traverse _annotate
                _set_propagate_attrs self c0)
      as (col & ann & attrs & Heq & Htags).
    exists col, ann, attrs. split; [|exact Htags].
    unfold __clause_element__, getitem. fold cols.
    by rewrite Ha, H0, <- Heq.
Qed.

(** X15: with or without an adapter, the clause element is the first entry
    of [expressions]; [expressions] always has one entry per column, and
    the clause element raises [IndexError] exactly when the property has no
    column, in which case [expressions] is empty. *)
Theorem clause_element_is_first_expression
    (self : @Comparator Expr Adapter Entity) :
  let cols := columns (prop_self (prop self)) in
  length (expressions_ self) = length cols
  /\ (forall e, clause_element self = inr e <-> expressions_ self !! 0 = Some e)
  /\ ((exists msg, clause_element self = inl (IndexError msg)) <-> cols = [])
  /\ (cols = [] -> expressions_ self = []).
Proof.
  intros cols. unfold __clause_element__, expressions, getitem. fold cols.
  destruct (adapter self) as [adapt|]; destruct cols as [|c0 rest]; simpl;
    split_and!; try done.
  all: try (intros e; split; intros [= <-]; done).
  all: try (split; [done|by eexists]).
  all: try (split; [by intros [msg [=]]|done]).
  all: by rewrite length_map.
Qed.

Variable mapper_class : @Mapper Expr Adapter -> pyobj.
Variable call_comparator_factory :
  pyobj -> @MappedProperty Expr Adapter -> @Mapper Expr Adapter -> result pyobj.

Local Abbreviation instrument_class_ :=
  (instrument_class mapper_class call_comparator_factory).

(** X16: a property built with a false [_instrument] option is inert: it
    registers no descriptor, without calling the comparator factory, and
    its [merge] changes nothing. Built without the option, or with a true
    one, it calls the stored [comparator_factory] on itself and the mapper:
    when the call returns, exactly one descriptor is registered, under the
    key, for the mapper's class, with the returned comparator, the mapper
    as parent entity and the constructed [doc]; when the call raises, as
    for a stored value that is not callable, [instrument_class] raises the
    same exception and registers nothing. *)
Theorem instrument_option_gates_descriptor_and_merge
    (expect : Expr -> result Expr) (_orm_full_deannotate : Expr -> result Expr)
    (getattr_doc : Expr -> pyobj)
    (cols : list Expr) (kw : gmap string pyobj) (n n' : nat)
    (p : @ColumnProperty Expr) (k : string) (m mapper : @Mapper Expr Adapter) :
  __init__ expect _orm_full_deannotate getattr_doc cols kw n = (inr p, n') ->
  let self := mkMappedProperty p k m in
  let on := truthy (default (PyBool true) (kw !! "_instrument")) in
  let factory := default Comparator_class (kw !! "comparator_factory") in
  (on = false ->
   instrument_class_ self mapper = inr []
   /\ forall source_dict dest_state dest_dict load,
        merge_ self source_dict dest_state dest_dict load
        = mkMerged dest_state dest_dict [])
  /\ (on = true -> forall comparator,
      call_comparator_factory factory self mapper = inr comparator ->
      instrument_class_ self mapper
      = inr [ {| reg_class := mapper_class mapper; reg_key := k;
                 reg_comparator := comparator; reg_parententity := mapper;
                 reg_doc := doc p |} ])
  /\ (on = true -> forall e,
      call_comparator_factory factory self mapper = inl e ->
      instrument_class_ self mapper = inl e).
Proof.
  intros (orig & cs & _ & _ & _ & -> & _)%init_success self on factory.
  subst self on factory. unfold instrument_class, merge. simpl. split_and!.
  - by intros ->.
  - by intros -> comparator ->.
  - by intros -> e ->.
Qed.

Variable class___name__ : @Mapper Expr Adapter -> string.

(** X17: under one mapper, [str()] tells attributes apart: two properties
    of the same parent with the same string have the same key. *)
Theorem str_distinguishes_keys (p1 p2 : @MappedProperty Expr Adapter) :
  parent p1 = parent p2 ->
  __str__ class___name__ p1 = __str__ class___name__ p2 ->
  key p1 = key p2.
Proof.
  unfold __str__. intros -> Heq.
  apply (inj (String.app _)) in Heq. by apply (inj (String.app ".")) in Heq.
Qed.

End Attached.

(** ** The further properties on the sample SQL layer *)

(** A literal passes the coercion but cannot be de-annotated: the
    construction fails with that exception. *)
Lemma init_failure_cases_witness :
  exists e,
    init [id_col; Lit "3"] no_options 7 = (inl e, 7)
    /\ e = AttributeError "3 has no attribute '_deannotate'"
    /\ exists c, c ∈ [id_col; Lit "3"] /\ deannotate c = inl e.
Proof.
  eexists. split; [by vm_compute|]. split; [done|].
  destruct (init_failure_cases expect deannotate getattr_doc
              [id_col; Lit "3"] no_options 7 7
              (AttributeError "3 has no attribute '_deannotate'")
              ltac:(vm_compute; reflexivity))
    as [_ [(c & Hc & [He|[He|(d & Hd & He)]])|(ks & _ & [=] & _)]].
  - repeat (apply elem_of_cons in Hc as [->|Hc]; [discriminate He|]).
    by apply elem_of_nil in Hc.
  - by exists c.
  - repeat (apply elem_of_cons in Hc as [->|Hc];
            [first [discriminate Hd | injection Hd as <-; discriminate He]|]).
    by apply elem_of_nil in Hc.
Defined.

(** A value that is no column, in second position, with unknown keywords
    in the same call: the coercion error is the one raised. *)
Lemma init_first_coercion_error_wins_witness :
  init ([id_col] ++ Junk "3" :: [name_col]) with_unknown 0
  = (inl (ArgumentError "Column expression expected, got 3"), 0).
Proof.
  destruct (init_first_coercion_error_wins expect deannotate getattr_doc
              [id_col] [name_col] (Junk "3") with_unknown 0
              (ArgumentError "Column expression expected, got 3"))
    as [Hfirst _].
  - intros a Ha. apply list_elem_of_singleton in Ha as ->. by eexists.
  - by apply Hfirst.
Defined.

(** Three options at once. *)
Lemma init_options_stored_witness :
  exists p,
    init [id_col] with_many 0 = (inr p, 1)
    /\ group p = PyStr "g"
    /\ expire_on_flush p = PyBool false
    /\ info p = Some (PyObj "dict" false)
    /\ descriptor p = PyNone.
Proof.
  destruct (init_options_stored expect deannotate getattr_doc
              [id_col] with_many 0 1 _ ltac:(vm_compute; reflexivity))
    as (Hg & _ & Hd & _ & He & Hi).
  eexists. split; [by vm_compute|]. by split_and!.
Defined.

Lemma unexpected_message_same_unknown_keys_witness :
  exists e,
    init [id_col] with_unknown 0 = (inl e, 0)
    /\ init [id_col] with_other_values 0 = (inl e, 0).
Proof.
  apply (unexpected_message_same_unknown_keys expect deannotate getattr_doc).
  - exists "zeta". split; [by exists PyNone|].
    apply (bool_decide_unpack _). by vm_compute.
  - intros k Hk.
    assert (k <> "deferred" /\ k <> "group") as [Hd Hg].
    { split; intros ->; apply Hk; apply (bool_decide_unpack _); by vm_compute. }
    unfold with_unknown, with_other_values.
    destruct (decide (k = "zeta")) as [->|]; [split; by eexists|].
    destruct (decide (k = "alpha")) as [->|]; [split; by eexists|].
    destruct (decide (k = "Beta")) as [->|]; [split; by eexists|].
    by rewrite !lookup_insert_ne, !lookup_empty by done.
Defined.

Lemma single_unknown_key_message_witness :
  init [id_col] with_one_unknown 0
  = (inl (TypeError
            "ColumnProperty received unexpected keyword argument(s): defered"),
     0).
Proof.
  apply (single_unknown_key_message expect deannotate getattr_doc
           [id_col] [id_col] [id_col] with_one_unknown "defered" 0).
  - done.
  - done.
  - by exists (PyBool true).
  - apply (bool_decide_unpack _). by vm_compute.
  - intros k' Hk' Hne. unfold with_one_unknown in Hk'.
    rewrite lookup_insert_ne in Hk' by done.
    destruct (decide (k' = "group")) as [->|].
    + apply (bool_decide_unpack _). by vm_compute.
    + rewrite lookup_insert_ne, lookup_empty in Hk' by done.
      by destruct Hk'.
Defined.

Lemma copy_succeeds_iff_witness :
  exists q n', copy expect deannotate getattr_doc deferred_prop 4 = (inr q, n').
Proof.
  apply (copy_succeeds_iff expect deannotate getattr_doc deferred_prop 4).
  intros c Hc. apply list_elem_of_singleton in Hc as ->.
  split; [by eexists|]. by eexists _, _.
Defined.

Lemma copy_of_copy_witness :
  exists q q',
    copy expect deannotate getattr_doc deferred_prop 4 = (inr q, 5)
    /\ copy expect deannotate getattr_doc q 5 = (inr q', 6)
    /\ columns q' = columns q /\ deferred q' = deferred q
    /\ strategy_key q' = strategy_key q /\ _creation_order q' = 5.
Proof.
  eexists. eexists. split; [by vm_compute|]. split.
  - apply (copy_of_copy expect deannotate getattr_doc deferred_prop _ 4 5);
      [by vm_compute|].
    intros c Hc. apply list_elem_of_singleton in Hc as ->. by split.
  - done.
Defined.

Lemma do_init_repeated_column_warns_witness :
  exists msg, do_init str_expr twice_prop = inr [SuperDoInit; Warn msg].
Proof.
  eexists.
  apply (do_init_repeated_column_warns str_expr twice_prop id_col 0);
    [by left|done].
Defined.

(** A destination without identity is not expired. *)
Lemma merge_leaves_alone_witness :
  merge_ x_prop ∅ false ∅ true = mkMerged false ∅ [].
Proof.
  apply (merge_leaves_alone (fun st : bool => st) impl_set expire_attributes
           x_prop ∅ ∅ false true); [done|by left].
Defined.

Lemma merge_detached_store_witness :
  dest_dict_after (merge_ x_prop five_source true ∅ false) !! "x"
  = Some (PyInt 5).
Proof.
  by apply (merge_detached_store (fun st : bool => st) impl_set
              expire_attributes x_prop five_source ∅ true).
Defined.

Lemma merge_stored_value_survives_witness :
  merge_ x_prop ∅ true
    (dest_dict_after (merge_ x_prop five_source true ∅ false)) true
  = mkMerged true (<["x" := PyInt 5]> ∅) [].
Proof.
  by apply (merge_stored_value_survives (fun st : bool => st) impl_set
              expire_attributes x_prop five_source ∅ ∅ true (PyInt 5) true).
Defined.

Lemma comparator_adapted_expressions_and_annotated_clause_witness :
  length (expressions traverse annotate set_propagate_attrs
            (comparator_of pk_prop (Some alias_adapter))) = 2
  /\ __clause_element__ traverse annotate set_propagate_attrs
       (comparator_of pk_prop None)
     = inr (Col "users.id" PyNone true).
Proof.
  split.
  - destruct (comparator_adapted_expressions_and_annotated_clause traverse
                annotate set_propagate_attrs
                (comparator_of pk_prop (Some alias_adapter))) as [Hes _].
    by destruct (Hes alias_adapter eq_refl) as [Hlen _].
  - destruct (comparator_adapted_expressions_and_annotated_clause traverse
                annotate set_propagate_attrs (comparator_of pk_prop None))
      as [_ Hce].
    destruct (Hce eq_refl id_col eq_refl)
      as (col & ann & attrs & Heq & _ & Hpe & _ & _ & [-> _] & _).
    rewrite Heq. unfold set_propagate_attrs, annotate, id_col.
    by rewrite Hpe.
Defined.

Lemma instrument_option_gates_descriptor_and_merge_witness :
  (exists p,
     init [x_col] with_instrument_off 0 = (inr p, 1)
     /\ instrument_class mapper_class call_factory
          (mkMappedProperty p "x" users_mapper) users_mapper = inr []
     /\ merge_ (mkMappedProperty p "x" users_mapper) five_source true ∅ true
        = mkMerged true ∅ [])
  /\ (exists p,
        init [x_col] with_factory_none 1 = (inr p, 2)
        /\ instrument_class mapper_class call_factory
             (mkMappedProperty p "x" users_mapper) users_mapper
           = inl (TypeError "'NoneType' object is not callable")).
Proof.
  split.
  - destruct (instrument_option_gates_descriptor_and_merge
                (InstanceState := bool)
                (fun st : bool => st) impl_set expire_attributes
                mapper_class call_factory
                expect deannotate getattr_doc [x_col] with_instrument_off 0 1 _
                "x" users_mapper users_mapper ltac:(vm_compute; reflexivity))
      as [Hoff _].
    destruct (Hoff eq_refl) as [Hreg Hmerge].
    eexists. split; [by vm_compute|]. split; [done|]. apply Hmerge.
  - destruct (instrument_option_gates_descriptor_and_merge
                (InstanceState := bool)
                (fun st : bool => st) impl_set expire_attributes
                mapper_class call_factory
                expect deannotate getattr_doc [x_col] with_factory_none 1 2 _
                "x" users_mapper users_mapper ltac:(vm_compute; reflexivity))
      as (_ & _ & Hraise).
    eexists. split; [by vm_compute|]. by apply Hraise.
Defined.

Lemma str_distinguishes_keys_witness : key x_prop = key hidden_prop.
Proof.
  by apply (str_distinguishes_keys class_name_of x_prop hidden_prop).
Defined.

(** Known options and columns only: the construction goes through. *)
Lemma init_succeeds_iff_witness :
  exists p n', init [id_col; name_col] with_many 0 = (inr p, n').
Proof.
  apply (init_succeeds_iff expect deannotate getattr_doc). split.
  - intros c Hc. repeat (apply elem_of_cons in Hc as [->|Hc];
                         [split; [by eexists|by eexists _, _]|]).
    by apply elem_of_nil in Hc.
  - intros k Hk. unfold with_many in Hk.
    destruct (decide (k = "group")) as [->|];
      [apply (bool_decide_unpack _); by vm_compute|].
    destruct (decide (k = "info")) as [->|];
      [apply (bool_decide_unpack _); by vm_compute|].
    destruct (decide (k = "expire_on_flush")) as [->|];
      [apply (bool_decide_unpack _); by vm_compute|].
    rewrite !lookup_insert_ne, lookup_empty in Hk by done. by destruct Hk.
Defined.
